(** * useStopwatch: the interval accumulator of src/stopwatch/useStopwatch.ts

    A shallow embedding of the hook's state and callbacks, and the
    properties of its specification.

    Modelling conventions.
    - Timestamps are the integer milliseconds returned by [Date.now()];
      they are modelled as [Z] (JS arithmetic on them is exact below 2^53).
    - The three [useState] cells form the record [Hook].  Every callback is
      run against the latest render, so a callback is a function from the
      rendered [Hook] to the next one.
    - [Date.now()] is an effect: the time source is an interface ([Clock])
      with two instances, a fake timer that only moves when it is advanced
      and a script of successive readings.
    - [onStop] is an effect too: the calls made are collected, in order, in
      the event list a computation returns. *)

From Stdlib Require Import ZArith Lia.
From stdpp Require Import base list.

Local Open Scope Z_scope.

(** ** Effects: the time source and the calls that leave the hook *)

(** The wall clock: a read returns a timestamp and the clock's next state. *)
Class Clock (T : Type) := Date_now : T -> Z * T.

(** What an observer of the hook sees: [onStop(time)] being called, and the
    value a public [split()] call returned. *)
Inductive Event : Type :=
  | OnStop (time : Z)
  | SplitReturned (time : Z).

(** Result, next clock state, events emitted. *)
Definition Eff (T A : Type) : Type := T -> A * T * list Event.

Definition ret {T A} (a : A) : Eff T A := fun c => (a, c, []).

Definition bind {T A B} (m : Eff T A) (k : A -> Eff T B) : Eff T B :=
  fun c =>
    let '(a, c1, e1) := m c in
    let '(b, c2, e2) := k a c1 in
    (b, c2, e1 ++ e2).

Definition now {T} `{Clock T} : Eff T Z :=
  fun c => let '(t, c') := Date_now c in (t, c', []).

Definition emit {T} (e : Event) : Eff T unit := fun c => (tt, c, [e]).

Declare Scope eff_scope.
Delimit Scope eff_scope with eff.
Notation "x <- m ;; k" := (bind m (fun x => k))
  (at level 100, m at next level, right associativity) : eff_scope.
Notation "m ;;; k" := (bind m (fun _ => k))
  (at level 100, right associativity) : eff_scope.

(** ** The hook's state *)

Record Hook : Type := mkHook {
  stopwatch : Z;
  runtime : list Z;
  isRunning : bool
}.

(** [useState(0)], [useState([])], [useState(false)]. *)
Definition init : Hook := mkHook 0 [] false.

Definition setStopwatch (v : Z) (h : Hook) : Hook :=
  mkHook v (runtime h) (isRunning h).
Definition setRuntime (v : list Z) (h : Hook) : Hook :=
  mkHook (stopwatch h) v (isRunning h).
Definition setIsRunning (v : bool) (h : Hook) : Hook :=
  mkHook (stopwatch h) (runtime h) v.

(** JS truthiness of [runtime[i + 1]]: [undefined] (index out of range) and
    the number 0 are falsy, every other timestamp is truthy. *)
Definition truthy (v : option Z) : bool :=
  match v with
  | Some n => negb (n =? 0)
  | None => false
  end.

Section Callbacks.
Context {T : Type} `{Clock T}.

Local Open Scope eff_scope.

(** The [for] loop of [split]: [i] is the loop index, [totalTime] the
    accumulator.  [runtime !! i] is [Some curr] exactly when
    [i < runtime.length], so its [None] case is the loop exit.  The loop
    advances [i] by 2, hence [length runtime] iterations always suffice
    (see [split_loop_pairs]). *)
Fixpoint split_loop (fuel : nat) (rt : list Z) (i : nat) (totalTime : Z)
  : Eff T Z :=
  match fuel with
  | O => ret totalTime
  | S fuel' =>
      match rt !! i with
      | None => ret totalTime
      | Some curr =>
          let next := rt !! (i + 1)%nat in
          if truthy next then
            split_loop fuel' rt (i + 2)%nat
              (totalTime + (default 0 next - curr))
          else
            t <- now ;;
            split_loop fuel' rt (i + 2)%nat (totalTime + (t - curr))
      end
  end.

Definition split (h : Hook) : Eff T Z :=
  split_loop (length (runtime h)) (runtime h) 0%nat 0.

(** [both]. *)
Definition startStop (h : Hook) : Eff T Hook :=
  t <- now ;;
  ret (setIsRunning (negb (isRunning h)) (setRuntime (runtime h ++ [t]) h)).

Definition start (h : Hook) : Eff T Hook :=
  if negb (isRunning h) then
    t <- now ;;
    ret (setIsRunning true (setRuntime (runtime h ++ [t]) h))
  else ret h.

Definition stop (h : Hook) : Eff T Hook :=
  if isRunning h then
    t <- split h ;;
    emit (OnStop t) ;;;
    ret (setIsRunning false h)
  else ret h.

Definition reset (h : Hook) : Eff T Hook :=
  ret (setIsRunning false (setRuntime [] (setStopwatch 0 h))).

(** The body of the [setInterval] callback installed by [useEffect]. *)
Definition tick (h : Hook) : Eff T Hook :=
  if isRunning h then
    t <- split h ;;
    ret (setStopwatch t h)
  else ret h.

(** The hook's public surface, plus the timer tick. *)
Inductive Op : Type := Start | Stop | Both | Reset | Split | Tick.

Definition step (o : Op) (h : Hook) : Eff T Hook :=
  match o with
  | Start => start h
  | Stop => stop h
  | Both => startStop h
  | Reset => reset h
  | Split => t <- split h ;; emit (SplitReturned t) ;;; ret h
  | Tick => tick h
  end.

Fixpoint run (ops : list Op) (h : Hook) : Eff T Hook :=
  match ops with
  | [] => ret h
  | o :: ops' => h' <- step o h ;; run ops' h'
  end.

(** The loop of [split] by structural recursion on the pairs it visits. *)
Fixpoint split_pairs (rt : list Z) (totalTime : Z) : Eff T Z :=
  match rt with
  | [] => ret totalTime
  | curr :: rest =>
      match rest with
      | [] => t <- now ;; ret (totalTime + (t - curr))
      | next :: rest' =>
          if negb (next =? 0) then
            split_pairs rest' (totalTime + (next - curr))
          else
            t <- now ;; split_pairs rest' (totalTime + (t - curr))
      end
  end.

End Callbacks.

(** ** Two time sources *)

(** A fake timer: time stands still until the test advances it. *)
Module FakeTimer.
Record t : Type := at_time { current : Z }.

#[global] Instance clock : Clock t := fun c => (current c, c).

Definition advance (d : Z) : Eff t unit :=
  fun c => (tt, at_time (current c + d), []).
End FakeTimer.

(** A script: the k-th call of [Date.now()] returns the k-th reading of a
    fixed list (and 0 once the list is used up). *)
Module Script.
Record t : Type := mk { readings : list Z; reads : nat }.

#[global] Instance clock : Clock t :=
  fun c => (default 0 (readings c !! reads c), mk (readings c) (S (reads c))).

Definition of_list (l : list Z) : t := mk l 0.
End Script.

Import FakeTimer.
Local Open Scope eff_scope.

(** ** Observations and test programs *)

(** The value [split()] returns when the fake timer shows [n]. *)
Definition split_at (h : Hook) (n : Z) : Z := fst (fst (split h (at_time n))).

(** [runtime.length] is odd exactly when [isRunning]. *)
Definition parity_ok (h : Hook) : bool :=
  Bool.eqb (Nat.odd (length (runtime h))) (isRunning h).

(** [start()], wait [d], [stop()], on a fresh hook. *)
Definition round_trip (d : Z) : Eff FakeTimer.t Hook :=
  h <- start init ;;
  advance d ;;;
  stop h.

(** [start()], wait [d1], [stop()], pause [gap], [start()], wait [d2],
    [stop()], on a fresh hook. *)
Definition two_cycles (d1 gap d2 : Z) : Eff FakeTimer.t Hook :=
  h <- start init ;;
  advance d1 ;;;
  h <- stop h ;;
  advance gap ;;;
  h <- start h ;;
  advance d2 ;;;
  stop h.

(** [n] presses of the single start/stop control. *)
Definition toggles (n : nat) : list Op := repeat Both n.

(** The same [n] presses made with the two dedicated controls: [start()]
    when idle, [stop()] when running. *)
Fixpoint start_stops (n : nat) (running : bool) : list Op :=
  match n with
  | O => []
  | S n' => (if running then Stop else Start) :: start_stops n' (negb running)
  end.

(** Two renders that differ at most in the displayed value [stopwatch]. *)
Definition same_core (h h' : Hook) : Prop :=
  runtime h = runtime h' /\ isRunning h = isRunning h'.

(** No odd-indexed entry of [runtime] (a stop slot) holds the timestamp 0. *)
Definition closed_stops (rt : list Z) : Prop :=
  forall i, Nat.Odd i -> rt !! i <> Some 0.

Definition is_tick (o : Op) : bool :=
  match o with Tick => true | _ => false end.

Definition is_stop (o : Op) : bool :=
  match o with Stop => true | _ => false end.

Definition is_reset (o : Op) : bool :=
  match o with Reset => true | _ => false end.

(** An operation sequence with the timer ticks taken out. *)
Definition without_ticks (ops : list Op) : list Op :=
  filter (fun o => is_tick o = false) ops.

Definition is_onStop (e : Event) : bool :=
  match e with OnStop _ => true | SplitReturned _ => false end.

(** [both()], wait [d], [both()], from the render [h]. *)
Definition toggle_trip (h : Hook) (d : Z) : Eff FakeTimer.t Hook :=
  h1 <- startStop h ;;
  advance d ;;;
  startStop h1.

(** [start()], wait [d], [stop()], from the render [h]. *)
Definition cycle_from (h : Hook) (d : Z) : Eff FakeTimer.t Hook :=
  h1 <- start h ;;
  advance d ;;;
  stop h1.

(** ** The loop of [split] *)

Section SplitLoop.
Context {T : Type} `{Clock T}.

Lemma split_loop_done fuel (rt : list Z) i total c :
  (length rt <= i)%nat -> split_loop fuel rt i total c = (total, c, []).
Proof.
  intros Hi. destruct fuel as [|fuel]; [reflexivity|].
  simpl. now rewrite (lookup_ge_None_2 rt i Hi).
Qed.

(** With as many iterations as [runtime] has entries the loop runs to its
    exit condition: started at index [i] it visits the pairs of
    [drop i runtime]. *)
Lemma split_loop_pairs fuel (rt : list Z) i total c :
  (length rt - i <= fuel)%nat ->
  split_loop fuel rt i total c = split_pairs (drop i rt) total c.
Proof.
  revert i total c. induction fuel as [|fuel IH]; intros i total c Hfuel.
  - rewrite drop_ge by lia. reflexivity.
  - simpl. destruct (rt !! i) as [curr|] eqn:Hcurr.
    + rewrite (drop_S rt curr i Hcurr).
      replace (i + 1)%nat with (S i) by lia.
      replace (i + 2)%nat with (S (S i)) by lia.
      assert (Hlt : (i < length rt)%nat) by (eapply lookup_lt_Some; eauto).
      destruct (rt !! S i) as [next|] eqn:Hnext.
      * rewrite (drop_S rt next (S i) Hnext). simpl.
        destruct (negb (next =? 0)).
        -- apply IH. lia.
        -- unfold bind, now. destruct (Date_now c) as [t c'].
           rewrite IH by lia. reflexivity.
      * assert (Hge : (length rt <= S i)%nat)
          by (apply lookup_ge_None; exact Hnext).
        rewrite (drop_ge rt (S i)) by lia. simpl.
        unfold bind, now. destruct (Date_now c) as [t c'].
        rewrite split_loop_done by lia. reflexivity.
    + rewrite drop_ge by (apply lookup_ge_None; exact Hcurr). reflexivity.
Qed.

Lemma split_pairs_eq (h : Hook) c : split h c = split_pairs (runtime h) 0 c.
Proof.
  unfold split. rewrite split_loop_pairs by lia. now rewrite drop_0.
Qed.

(** Induction that follows the loop: two entries at a time. *)
Lemma list_pair_ind (P : list Z -> Prop) :
  P [] -> (forall a, P [a]) -> (forall a b l, P l -> P (a :: b :: l)) ->
  forall l, P l.
Proof.
  intros Hnil Hone Hpair l.
  enough (P l /\ forall a, P (a :: l)) by tauto.
  induction l as [|b l [IH1 IH2]]; split; auto.
Qed.

(** [split] reads the clock but calls nothing. *)
Lemma split_pairs_silent (rt : list Z) total c :
  snd (split_pairs rt total c) = [].
Proof.
  revert total c. induction rt as [|a|a b l IH] using list_pair_ind;
    intros total c; simpl.
  - reflexivity.
  - unfold bind, now. now destruct (Date_now c).
  - destruct (negb (b =? 0)); [apply IH|].
    unfold bind, now. destruct (Date_now c) as [t c'].
    specialize (IH (total + (t - a)) c').
    destruct (split_pairs l (total + (t - a)) c') as [[v c2] e].
    simpl in *. now subst.
Qed.

(** The accumulator is only ever added to. *)
Lemma split_pairs_shift (rt : list Z) total c :
  split_pairs rt total c =
  (total + fst (fst (split_pairs rt 0 c)), snd (fst (split_pairs rt 0 c)), []).
Proof.
  revert total c. induction rt as [|a|a b l IH] using list_pair_ind;
    intros total c; simpl.
  - unfold ret. simpl. f_equal. f_equal. lia.
  - unfold bind, now, ret. now destruct (Date_now c).
  - destruct (negb (b =? 0)).
    + rewrite (IH (total + (b - a))), (IH (0 + (b - a))). simpl.
      f_equal. f_equal. lia.
    + unfold bind, now. destruct (Date_now c) as [t c'].
      rewrite (IH (total + (t - a))), (IH (0 + (t - a))). simpl.
      f_equal. f_equal. lia.
Qed.

(** A prefix of whole pairs is summed first, the rest afterwards. *)
Lemma split_pairs_app (pre rest : list Z) total c :
  Nat.Even (length pre) ->
  split_pairs (pre ++ rest) total c =
  split_pairs rest (fst (fst (split_pairs pre total c)))
                   (snd (fst (split_pairs pre total c))).
Proof.
  revert total c. induction pre as [|a|a b l IH] using list_pair_ind;
    intros total c Heven.
  - reflexivity.
  - destruct Heven as [m Hm]. simpl in Hm. lia.
  - assert (Hl : Nat.Even (length l)).
    { destruct Heven as [m Hm]. simpl in Hm. exists (m - 1)%nat. lia. }
    simpl. destruct (negb (b =? 0)); [now apply IH|].
    unfold bind, now. destruct (Date_now c) as [t c'].
    rewrite (IH (total + (t - a)) c' Hl).
    destruct (split_pairs l (total + (t - a)) c') as [[v c2] e] eqn:E1.
    simpl.
    pose proof (split_pairs_silent rest v c2) as Hs.
    pose proof (split_pairs_silent l (total + (t - a)) c') as Hs'.
    rewrite E1 in Hs'. simpl in Hs'. subst e.
    destruct (split_pairs rest v c2) as [[v' c3] e'].
    simpl in *. now subst.
Qed.

Lemma split_silent (h : Hook) c : snd (split h c) = [].
Proof. rewrite split_pairs_eq. apply split_pairs_silent. Qed.

End SplitLoop.

(** ** Transitions, for any time source *)

Section Transitions.
Context {T : Type} `{Clock T}.

Lemma run_app (ops1 ops2 : list Op) (h : Hook) (c : T) :
  run (ops1 ++ ops2) h c =
  let '(h1, c1, e1) := run ops1 h c in
  let '(h2, c2, e2) := run ops2 h1 c1 in
  (h2, c2, e1 ++ e2).
Proof.
  revert h c. induction ops1 as [|o ops1 IH]; intros h c; simpl.
  - unfold ret. now destruct (run ops2 h c) as [[h2 c2] e2].
  - unfold bind. destruct (step o h c) as [[h' c'] e].
    rewrite IH. destruct (run ops1 h' c') as [[h1 c1] e1].
    destruct (run ops2 h1 c1) as [[h2 c2] e2].
    now rewrite app_assoc.
Qed.

(** [reset] ignores the state it is called in. *)
Lemma reset_any (h : Hook) (c : T) : reset h c = (init, c, []).
Proof. reflexivity. Qed.

Lemma start_running (h : Hook) (c : T) :
  isRunning (fst (fst (start h c))) = true.
Proof.
  unfold start. destruct (isRunning h) eqn:E; simpl; [exact E|].
  unfold bind, now. now destruct (Date_now c).
Qed.

Lemma start_when_running (h : Hook) (c : T) :
  isRunning h = true -> start h c = (h, c, []).
Proof. intros E. unfold start. now rewrite E. Qed.

(** [stop] never writes [runtime]: whatever it does, the boundaries it
    was called with are the boundaries it leaves. *)
Lemma stop_keeps_runtime (h : Hook) (c : T) :
  runtime (fst (fst (stop h c))) = runtime h.
Proof.
  unfold stop. destruct (isRunning h); [|reflexivity].
  unfold bind. destruct (split h c) as [[t c1] e]. reflexivity.
Qed.

(** C7: after any sequence of operations [reset()] reads no clock, calls
    nothing and leaves the hook idle with [split() = 0]; from there every
    operation sequence does exactly what it does on a fresh hook. *)
Theorem reset_restores_fresh (ops : list Op) (c : T) :
  let '(h, c1, _) := run ops init c in
  let '(h', c1', e') := reset h c1 in
  c1' = c1 /\ e' = [] /\
  isRunning h' = false /\
  (forall c2, split h' c2 = (0, c2, [])) /\
  (forall ops' c2, run ops' h' c2 = run ops' init c2).
Proof.
  destruct (run ops init c) as [[h c1] e].
  rewrite reset_any. repeat split.
Qed.

(** C8: a second [start()] reads no clock and returns the state the first
    one produced, so whatever follows runs as after a single [start()]. *)
Theorem start_twice_is_start_once (h : Hook) (c c' : T) :
  let '(h1, _, _) := start h c in
  start h1 c' = (h1, c', []) /\
  (forall ops, run (Start :: ops) h1 c' = run ops h1 c') /\
  split h1 c' = split (fst (fst (start h1 c'))) c'.
Proof.
  pose proof (start_running h c) as Hrun.
  destruct (start h c) as [[h1 c1] e1]. simpl in Hrun.
  assert (E : start h1 c' = (h1, c', [])) by now apply start_when_running.
  split; [exact E|]. split.
  - intros ops. simpl. unfold bind. rewrite E.
    now destruct (run ops h1 c') as [[h2 c2] e2].
  - now rewrite E.
Qed.

(** C9: [stop()] on an idle hook calls nothing, reads no clock and returns
    the state unchanged, hence [split()] is unchanged too. *)
Theorem stop_idle_noop (h : Hook) (c : T) :
  isRunning h = false ->
  stop h c = (h, c, []) /\
  split (fst (fst (stop h c))) c = split h c.
Proof.
  intros E. unfold stop. rewrite E. split; reflexivity.
Qed.

End Transitions.

(** ** The fake timer: time stands still during a call *)

Lemma fake_split_pairs_clock (rt : list Z) total (c : FakeTimer.t) :
  snd (fst (split_pairs rt total c)) = c.
Proof.
  revert total. induction rt as [|a|a b l IH] using list_pair_ind;
    intros total; simpl; try reflexivity.
  destruct (negb (b =? 0)); [apply IH|].
  unfold bind, now. simpl.
  specialize (IH (total + (current c - a))).
  now destruct (split_pairs l (total + (current c - a)) c) as [[v c2] e].
Qed.

Lemma fake_split (h : Hook) (c : FakeTimer.t) :
  split h c = (split_at h (current c), c, []).
Proof.
  unfold split_at. destruct c as [n]. simpl.
  rewrite !split_pairs_eq, split_pairs_shift, fake_split_pairs_clock.
  reflexivity.
Qed.

Lemma split_at_pairs (h : Hook) (n : Z) :
  split_at h n = fst (fst (split_pairs (runtime h) 0 (at_time n))).
Proof. unfold split_at. now rewrite split_pairs_eq. Qed.

(** Whole pairs in front and the rest behind are measured separately. *)
Lemma split_at_app (sw : Z) (r : bool) (pre rest : list Z) (n : Z) :
  Nat.Even (length pre) ->
  split_at (mkHook sw (pre ++ rest) r) n =
  split_at (mkHook sw pre r) n + split_at (mkHook sw rest r) n.
Proof.
  intros Heven. rewrite !split_at_pairs. simpl.
  rewrite split_pairs_app by exact Heven.
  rewrite fake_split_pairs_clock, split_pairs_shift. reflexivity.
Qed.

(** A pair whose second entry is a non-zero timestamp is closed. *)
Lemma split_at_closed_pair (sw : Z) (r : bool) (s e : Z) (post : list Z) n :
  e <> 0 ->
  split_at (mkHook sw (s :: e :: post) r) n =
  (e - s) + split_at (mkHook sw post r) n.
Proof.
  intros He. rewrite !split_at_pairs. simpl.
  destruct (Z.eqb_spec e 0) as [->|_]; [contradiction|]. simpl.
  now rewrite split_pairs_shift.
Qed.

(** A pair whose second entry is the timestamp 0 is measured up to now. *)
Lemma split_at_zero_pair (sw : Z) (r : bool) (s : Z) (post : list Z) n :
  split_at (mkHook sw (s :: 0 :: post) r) n =
  (n - s) + split_at (mkHook sw post r) n.
Proof.
  rewrite !split_at_pairs. simpl. unfold bind, now. simpl.
  rewrite split_pairs_shift. reflexivity.
Qed.

(** C10: when an odd-indexed entry of [runtime] is the timestamp 0,
    [split()] measures the interval that entry should close up to the
    current clock reading, [now - start], and not as [0 - start]. *)
Theorem zero_stop_boundary_is_read_as_open (h : Hook) (i : nat) (s n : Z) :
  Nat.Odd i ->
  runtime h !! (i - 1)%nat = Some s ->
  runtime h !! i = Some 0 ->
  split_at h n =
  split_at (setRuntime (take (i - 1) (runtime h)) h) n
  + (n - s)
  + split_at (setRuntime (drop (i + 1) (runtime h)) h) n.
Proof.
  intros [k Hk] Hs Hz. destruct h as [sw rt r]. simpl in *.
  assert (Hlen : (i < length rt)%nat) by (eapply lookup_lt_Some; eauto).
  assert (Hrt : rt = take (i - 1) rt ++ s :: 0 :: drop (i + 1) rt).
  { rewrite <- (take_drop (i - 1) rt) at 1. f_equal.
    rewrite (drop_S rt s (i - 1) Hs). replace (S (i - 1)) with i by lia.
    rewrite (drop_S rt 0 i Hz). now replace (S i) with (i + 1)%nat by lia. }
  unfold setRuntime. simpl. rewrite Hrt at 1.
  rewrite split_at_app.
  - rewrite split_at_zero_pair. lia.
  - exists k. rewrite length_take. lia.
Qed.

Lemma zero_stop_boundary_witness :
  Nat.Odd 1 /\
  runtime (mkHook 0 [0; 0; 7; 9] false) !! (1 - 1)%nat = Some 0 /\
  runtime (mkHook 0 [0; 0; 7; 9] false) !! 1%nat = Some 0 /\
  split_at (mkHook 0 [0; 0; 7; 9] false) 5000 =
  split_at (setRuntime (take (1 - 1) [0; 0; 7; 9]) (mkHook 0 [0; 0; 7; 9] false)) 5000
  + (5000 - 0)
  + split_at (setRuntime (drop (1 + 1) [0; 0; 7; 9]) (mkHook 0 [0; 0; 7; 9] false)) 5000.
Proof.
  assert (H1 : Nat.Odd 1) by (exists 0%nat; reflexivity).
  split; [exact H1|]. split; [reflexivity|]. split; [reflexivity|].
  apply (zero_stop_boundary_is_read_as_open
           (mkHook 0 [0; 0; 7; 9] false) 1 0 5000 H1); reflexivity.
Defined.

(** Two presses at time 0 and one closed interval 7..9, read at 5000: the
    first pair counts 5000, not 0. *)
Example split_after_presses_at_zero :
  run [Both; Both; Both; Both; Split] init (Script.of_list [0; 0; 7; 9; 5000])
  = (mkHook 0 [0; 0; 7; 9] false, Script.mk [0; 0; 7; 9; 5000] 5,
     [SplitReturned 5002]).
Proof. reflexivity. Qed.

(** ** One start/stop cycle *)

(** C6: on a fresh hook, [start()], a wait of exactly [d] and [stop()] call
    [onStop] exactly once, with [d], and leave [isRunning] false. *)
Theorem round_trip_reports_d (t0 d : Z) :
  let '(h, _, events) := round_trip d (at_time t0) in
  events = [OnStop d] /\ isRunning h = false.
Proof.
  cbn. split; [|reflexivity]. do 2 f_equal. lia.
Qed.

(** What [stop()] leaves behind after that cycle: the start timestamp
    alone, so the interval is still measured against the clock. *)
Lemma round_trip_state (t0 d : Z) :
  fst (fst (round_trip d (at_time t0))) = mkHook 0 [t0] false.
Proof. reflexivity. Qed.

Lemma split_after_round_trip (t0 d n : Z) :
  split_at (fst (fst (round_trip d (at_time t0)))) n = n - t0.
Proof. rewrite round_trip_state. reflexivity. Qed.

(** C1: [start()] at 0 and [stop()] at 1000 leave [runtime = [0]] with
    [isRunning = false]; [split()] then returns 1000 at time 1000 and 5000
    at time 5000: the stopped interval keeps growing with the clock. *)
Theorem split_after_stop_follows_clock :
  let h := fst (fst (round_trip 1000 (at_time 0))) in
  h = mkHook 0 [0] false /\
  split h (at_time 1000) = (1000, at_time 1000, []) /\
  split h (at_time 5000) = (5000, at_time 5000, []).
Proof. repeat split. Qed.

(** ** Several cycles *)

(** C2: with the readings 0, 1000, 1000, 2000, 5000 the calls
    [start(); split(); stop(); start(); split()] return 1000 from the first
    [split()], pass 1000 to [onStop], and return 2000 from the final
    [split()] (the pair [0, 2000]); the reading 5000 is never taken. *)
Theorem scenario_final_split_is_2000 :
  run [Start; Split; Stop; Start; Split] init
      (Script.of_list [0; 1000; 1000; 2000; 5000])
  = (mkHook 0 [0; 2000] true,
     Script.mk [0; 1000; 1000; 2000; 5000] 4,
     [SplitReturned 1000; OnStop 1000; SplitReturned 2000]).
Proof. reflexivity. Qed.

(** The second [start()] lands in the slot of the missing stop timestamp:
    unless it is the timestamp 0, the second report is the first run plus
    the pause, whatever the second run lasted. *)
Lemma two_cycles_reports (t0 d1 gap d2 : Z) :
  t0 + d1 + gap <> 0 ->
  snd (two_cycles d1 gap d2 (at_time t0)) = [OnStop d1; OnStop (d1 + gap)].
Proof.
  intros Hnz. cbn.
  destruct (Z.eqb_spec (t0 + d1 + gap) 0) as [E|_]; [contradiction|].
  cbn. f_equal; [f_equal; lia|]. f_equal. f_equal. lia.
Qed.

(** C3: runs of 1000 and 3000 separated by a pause of 1000 (from time 0)
    make the second [stop()] report 2000, the first run plus the pause, and
    not 1000 + 3000; with no pause at all (from time 1000) it reports 1000. *)
Theorem second_stop_reports_pause_not_run :
  snd (two_cycles 1000 1000 3000 (at_time 0)) = [OnStop 1000; OnStop 2000] /\
  snd (two_cycles 1000 0 3000 (at_time 1000)) = [OnStop 1000; OnStop 1000].
Proof. split; reflexivity. Qed.

(** ** Parity of [runtime] against [isRunning] *)

Section Parity.
Context {T : Type} `{Clock T}.

Lemma odd_length_snoc (l : list Z) (t : Z) :
  Nat.odd (length (l ++ [t])) = negb (Nat.odd (length l)).
Proof.
  rewrite length_app. simpl. rewrite Nat.add_1_r, Nat.odd_succ.
  now rewrite <- Nat.negb_odd.
Qed.

(** Every callback but [stop] keeps the parity. *)
Lemma parity_step (o : Op) (h : Hook) (c : T) :
  o <> Stop -> parity_ok h = true ->
  parity_ok (fst (fst (step o h c))) = true.
Proof.
  intros Ho Hp. unfold parity_ok in *. apply Bool.eqb_prop in Hp.
  destruct o; try contradiction; simpl.
  - unfold start. destruct (isRunning h) eqn:E; simpl.
    + rewrite E, Hp. reflexivity.
    + unfold bind, now. destruct (Date_now c) as [t c']. simpl.
      rewrite odd_length_snoc, Hp. reflexivity.
  - unfold startStop, bind, now. destruct (Date_now c) as [t c']. simpl.
    rewrite odd_length_snoc, Hp. now destruct (isRunning h).
  - reflexivity.
  - unfold bind. destruct (split h c) as [[t c'] e]. simpl.
    rewrite Hp. now destruct (isRunning h).
  - unfold tick. destruct (isRunning h) eqn:E.
    + unfold bind. destruct (split h c) as [[t c'] e]. simpl.
      rewrite Hp, E. reflexivity.
    + simpl. rewrite Hp, E. reflexivity.
Qed.

Lemma parity_run (ops : list Op) (h : Hook) (c : T) :
  Forall (fun o => o <> Stop) ops -> parity_ok h = true ->
  parity_ok (fst (fst (run ops h c))) = true.
Proof.
  intros Hops. revert h c. induction Hops as [|o ops Ho _ IH];
    intros h c Hp; simpl; [exact Hp|].
  unfold bind. pose proof (parity_step o h c Ho Hp) as Hp'.
  destruct (step o h c) as [[h' c'] e]. simpl in Hp'.
  specialize (IH h' c' Hp').
  now destruct (run ops h' c') as [[h2 c2] e2].
Qed.

(** [stop], when it acts, clears the flag and leaves the odd length. *)
Lemma stop_breaks_parity (h : Hook) (c : T) :
  isRunning h = true -> parity_ok h = true ->
  parity_ok (fst (fst (stop h c))) = false.
Proof.
  intros E Hp. unfold parity_ok in *. apply Bool.eqb_prop in Hp.
  unfold stop, bind. rewrite E. destruct (split h c) as [[t c'] e]. simpl.
  rewrite Hp, E. reflexivity.
Qed.



End Parity.

(** C4: after [start(); stop()] the hook is idle with one boundary (odd
    length, not running), and a further [start()] makes it running with
    two (even length, running). *)
Theorem parity_lost_after_stop :
  fst (fst (run [Start; Stop] init (at_time 5))) = mkHook 0 [5] false /\
  parity_ok (fst (fst (run [Start; Stop] init (at_time 5)))) = false /\
  fst (fst (run [Start; Stop; Start] init (at_time 5))) = mkHook 0 [5; 5] true /\
  parity_ok (fst (fst (run [Start; Stop; Start] init (at_time 5)))) = false.
Proof. repeat split. Qed.

(** C5: with the readings 0 and 1000, two presses of [both()] record
    [[0; 1000]] while [start(); stop()] records [[0]] only; [both()] calls
    nothing, [stop()] calls [onStop]. *)
Theorem toggle_and_start_stop_boundaries_differ :
  run (toggles 2) init (Script.of_list [0; 1000])
  = (mkHook 0 [0; 1000] false, Script.mk [0; 1000] 2, []) /\
  run (start_stops 2 false) init (Script.of_list [0; 1000])
  = (mkHook 0 [0] false, Script.mk [0; 1000] 2, [OnStop 1000]).
Proof. split; reflexivity. Qed.

Lemma stop_idle_noop_witness :
  isRunning (mkHook 0 [3; 8] false) = false /\
  stop (mkHook 0 [3; 8] false) (at_time 20) =
    (mkHook 0 [3; 8] false, at_time 20, []) /\
  split (fst (fst (stop (mkHook 0 [3; 8] false) (at_time 20)))) (at_time 20)
  = split (mkHook 0 [3; 8] false) (at_time 20).
Proof.
  split; [reflexivity|].
  apply (stop_idle_noop (mkHook 0 [3; 8] false) (at_time 20)). reflexivity.
Defined.


(** ** [split] as a function of the clock *)

Lemma closed_stops_tail (a b : Z) (l : list Z) :
  closed_stops (a :: b :: l) -> b <> 0 /\ closed_stops l.
Proof.
  intros Hc. split.
  - intros ->. apply (Hc 1%nat); [exists 0%nat; reflexivity | reflexivity].
  - intros i [k Hk] Hi. apply (Hc (S (S i))); [exists (S k); lia | exact Hi].
Qed.

Lemma even_length_tail (a b : Z) (l : list Z) :
  Nat.Even (length (a :: b :: l)) -> Nat.Even (length l).
Proof. intros [m Hm]. simpl in Hm. exists (m - 1)%nat. lia. Qed.

(** Whole closed pairs are summed without a look at the clock: on any time
    source the loop returns what it returns under a fake timer showing any
    [n], and leaves the clock as it found it. *)
Lemma split_pairs_closed {T : Type} `{Clock T}
    (rt : list Z) (total : Z) (c : T) (n : Z) :
  Nat.Even (length rt) -> closed_stops rt ->
  split_pairs rt total c
  = (fst (fst (split_pairs rt total (at_time n))), c, []).
Proof.
  revert total. induction rt as [|a|a b l IH] using list_pair_ind;
    intros total Heven Hclosed.
  - reflexivity.
  - destruct Heven as [m Hm]. simpl in Hm. lia.
  - destruct (closed_stops_tail a b l Hclosed) as [Hb Hl].
    simpl. destruct (Z.eqb_spec b 0) as [E|_]; [contradiction|]. simpl.
    apply IH; [eapply even_length_tail; eauto | exact Hl].
Qed.

(** X1: when [runtime] holds whole pairs only and no stop slot holds 0,
    [split()] does not read the clock and calls nothing, on any time source,
    and its value is the same at every time. *)
Theorem split_closed_reads_no_clock {T : Type} `{Clock T}
    (h : Hook) (c : T) (n : Z) :
  Nat.Even (length (runtime h)) -> closed_stops (runtime h) ->
  split h c = (split_at h n, c, []).
Proof.
  intros Heven Hclosed. rewrite split_at_pairs, split_pairs_eq.
  now apply split_pairs_closed.
Qed.

Lemma split_closed_reads_no_clock_witness :
  Nat.Even (length (runtime (mkHook 0 [3; 8; 10; 14] false))) /\
  closed_stops (runtime (mkHook 0 [3; 8; 10; 14] false)) /\
  split (mkHook 0 [3; 8; 10; 14] false) (Script.of_list [20; 30])
  = (split_at (mkHook 0 [3; 8; 10; 14] false) 99, Script.of_list [20; 30], []).
Proof.
  assert (He : Nat.Even (length (runtime (mkHook 0 [3; 8; 10; 14] false))))
    by (exists 2%nat; reflexivity).
  assert (Hc : closed_stops (runtime (mkHook 0 [3; 8; 10; 14] false))).
  { intros i _. simpl. destruct i as [|[|[|[|i]]]]; discriminate. }
  split; [exact He|]. split; [exact Hc|].
  exact (split_closed_reads_no_clock
           (mkHook 0 [3; 8; 10; 14] false) (Script.of_list [20; 30]) 99 He Hc).
Defined.

(** X2: when [runtime] is whole closed pairs followed by one start
    timestamp [s], [split()] reads the clock exactly once and returns the
    closed total plus [now - s]. *)
Theorem split_open_reads_clock_once {T : Type} `{Clock T}
    (h : Hook) (pre : list Z) (s : Z) (c : T) (n : Z) :
  runtime h = pre ++ [s] ->
  Nat.Even (length pre) -> closed_stops pre ->
  split h c =
  (split_at (setRuntime pre h) n + (fst (Date_now c) - s), snd (Date_now c), []).
Proof.
  intros Hrt Heven Hclosed.
  rewrite split_pairs_eq, Hrt, split_pairs_app by exact Heven.
  rewrite (split_pairs_closed pre 0 c n Heven Hclosed). simpl.
  unfold bind, now, ret. destruct (Date_now c) as [t c']. simpl.
  now rewrite split_at_pairs.
Qed.

Lemma split_open_reads_clock_once_witness :
  runtime (mkHook 0 [3; 8; 10] true) = [3; 8] ++ [10] /\
  Nat.Even (length [3; 8]) /\ closed_stops [3; 8] /\
  split (mkHook 0 [3; 8; 10] true) (Script.of_list [20; 30])
  = (split_at (setRuntime [3; 8] (mkHook 0 [3; 8; 10] true)) 99
     + (fst (Date_now (Script.of_list [20; 30])) - 10),
     snd (Date_now (Script.of_list [20; 30])), []).
Proof.
  assert (He : Nat.Even (length [3; 8])) by (exists 1%nat; reflexivity).
  assert (Hc : closed_stops [3; 8]).
  { intros i _. destruct i as [|[|i]]; discriminate. }
  split; [reflexivity|]. split; [exact He|]. split; [exact Hc|].
  exact (split_open_reads_clock_once (mkHook 0 [3; 8; 10] true) [3; 8] 10
           (Script.of_list [20; 30]) 99 eq_refl He Hc).
Defined.

(** X3: whatever [runtime] holds, the value of [split()] never decreases
    when the clock reading increases. *)
Theorem split_monotone (h : Hook) (n1 n2 : Z) :
  n1 <= n2 -> split_at h n1 <= split_at h n2.
Proof.
  intros Hle. destruct h as [sw rt r]. revert sw r.
  induction rt as [|a|a b l IH] using list_pair_ind; intros sw r.
  - reflexivity.
  - unfold split_at. cbn. lia.
  - destruct (Z.eq_dec b 0) as [->|Hb].
    + rewrite !split_at_zero_pair. specialize (IH sw r). lia.
    + rewrite !split_at_closed_pair by exact Hb. specialize (IH sw r). lia.
Qed.

Lemma split_monotone_witness :
  10 <= 25 /\
  split_at (mkHook 0 [3; 0; 4; 9; 7] true) 10
  <= split_at (mkHook 0 [3; 0; 4; 9; 7] true) 25.
Proof.
  assert (Hle : 10 <= 25) by lia.
  split; [exact Hle|].
  exact (split_monotone (mkHook 0 [3; 0; 4; 9; 7] true) 10 25 Hle).
Defined.

(** ** The displayed value and the timer tick *)

Section Display.
Context {T : Type} `{Clock T}.

(** [split] looks at [runtime] only. *)
Lemma split_same_runtime (h h' : Hook) (c : T) :
  runtime h = runtime h' -> split h c = split h' c.
Proof. intros E. unfold split. now rewrite E. Qed.

(** No callback reads [stopwatch]: from two renders that differ in it
    alone, a callback reads the clock alike, calls alike, and leaves two
    renders that again differ in it alone. *)
Lemma step_same_core (o : Op) (h h' : Hook) (c : T) :
  same_core h h' ->
  same_core (fst (fst (step o h c))) (fst (fst (step o h' c))) /\
  snd (fst (step o h c)) = snd (fst (step o h' c)) /\
  snd (step o h c) = snd (step o h' c).
Proof.
  intros [Hrt Hrun].
  pose proof (split_same_runtime h h' c Hrt) as Hsplit.
  unfold same_core.
  destruct o; simpl.
  - unfold start. rewrite <- Hrun. destruct (isRunning h) eqn:E; simpl.
    + repeat split; congruence.
    + unfold bind, now. destruct (Date_now c) as [t c']. simpl.
      now rewrite Hrt.
  - unfold stop. rewrite <- Hrun. destruct (isRunning h) eqn:E; simpl.
    + unfold bind. rewrite <- Hsplit.
      destruct (split h c) as [[t c'] e]. simpl. repeat split; congruence.
    + repeat split; congruence.
  - unfold startStop, bind, now. destruct (Date_now c) as [t c']. simpl.
    now rewrite Hrt, Hrun.
  - auto.
  - unfold bind. rewrite <- Hsplit.
    destruct (split h c) as [[t c'] e]. simpl. auto.
  - unfold tick. rewrite <- Hrun. destruct (isRunning h) eqn:E; simpl.
    + unfold bind. rewrite <- Hsplit.
      destruct (split h c) as [[t c'] e]. simpl. repeat split; congruence.
    + repeat split; congruence.
Qed.

(** X4: the displayed value [stopwatch] is write-only.  Any sequence of
    operations run from two renders that differ only in [stopwatch] reads
    the clock alike, makes the same [onStop] calls and [split()] returns,
    and ends with the same [runtime] and [isRunning]. *)
Theorem stopwatch_is_never_read (ops : list Op) (h h' : Hook) (c : T) :
  same_core h h' ->
  same_core (fst (fst (run ops h c))) (fst (fst (run ops h' c))) /\
  snd (fst (run ops h c)) = snd (fst (run ops h' c)) /\
  snd (run ops h c) = snd (run ops h' c).
Proof.
  revert h h' c. induction ops as [|o ops IH]; intros h h' c Hcore; simpl.
  - auto.
  - unfold bind.
    destruct (step_same_core o h h' c Hcore) as (Hc1 & Hclk & Hev).
    destruct (step o h c) as [[h1 c1] e1].
    destruct (step o h' c) as [[h1' c1'] e1']. simpl in *. subst c1' e1'.
    destruct (IH h1 h1' c1 Hc1) as (Hc2 & Hclk2 & Hev2).
    destruct (run ops h1 c1) as [[h2 c2] e2].
    destruct (run ops h1' c1) as [[h2' c2'] e2']. simpl in *.
    subst. auto.
Qed.

End Display.

Lemma stopwatch_is_never_read_witness :
  same_core (mkHook 0 [3] true) (mkHook 77 [3] true) /\
  same_core
    (fst (fst (run [Split; Stop; Both] (mkHook 0 [3] true) (at_time 9))))
    (fst (fst (run [Split; Stop; Both] (mkHook 77 [3] true) (at_time 9)))) /\
  snd (fst (run [Split; Stop; Both] (mkHook 0 [3] true) (at_time 9)))
  = snd (fst (run [Split; Stop; Both] (mkHook 77 [3] true) (at_time 9))) /\
  snd (run [Split; Stop; Both] (mkHook 0 [3] true) (at_time 9))
  = snd (run [Split; Stop; Both] (mkHook 77 [3] true) (at_time 9)).
Proof.
  assert (Hc : same_core (mkHook 0 [3] true) (mkHook 77 [3] true))
    by (split; reflexivity).
  split; [exact Hc|].
  exact (stopwatch_is_never_read [Split; Stop; Both]
           (mkHook 0 [3] true) (mkHook 77 [3] true) (at_time 9) Hc).
Defined.

(** Under the fake timer a tick changes [stopwatch] at most. *)
Lemma fake_tick (h : Hook) (c : FakeTimer.t) :
  same_core (fst (fst (tick h c))) h /\
  snd (fst (tick h c)) = c /\ snd (tick h c) = [].
Proof.
  unfold tick, same_core. destruct (isRunning h) eqn:E; simpl; [|auto].
  unfold bind. rewrite fake_split. simpl. auto.
Qed.

Lemma ticks_unobservable_from (ops : list Op) (h h' : Hook) (c : FakeTimer.t) :
  same_core h h' ->
  same_core (fst (fst (run ops h c))) (fst (fst (run (without_ticks ops) h' c))) /\
  snd (fst (run ops h c)) = snd (fst (run (without_ticks ops) h' c)) /\
  snd (run ops h c) = snd (run (without_ticks ops) h' c).
Proof.
  revert h h' c. induction ops as [|o ops IH]; intros h h' c Hcore.
  - simpl. auto.
  - destruct (is_tick o) eqn:Ho.
    + destruct o; try discriminate.
      unfold without_ticks. rewrite filter_cons_False by (simpl; congruence).
      fold (without_ticks ops). simpl. unfold bind.
      destruct (fake_tick h c) as (Hc1 & Hclk & Hev).
      destruct (tick h c) as [[h1 c1] e1]. simpl in *. subst c1 e1.
      assert (Hc1' : same_core h1 h').
      { destruct Hc1 as [A B], Hcore as [A' B']. split; congruence. }
      destruct (IH h1 h' c Hc1') as (Hc2 & Hclk2 & Hev2).
      destruct (run ops h1 c) as [[h2 c2] e2]. simpl in *. auto.
    + unfold without_ticks. rewrite filter_cons_True by exact Ho.
      fold (without_ticks ops). simpl. unfold bind.
      destruct (step_same_core o h h' c Hcore) as (Hc1 & Hclk & Hev).
      destruct (step o h c) as [[h1 c1] e1].
      destruct (step o h' c) as [[h1' c1'] e1']. simpl in *. subst c1' e1'.
      destruct (IH h1 h1' c1 Hc1) as (Hc2 & Hclk2 & Hev2).
      destruct (run ops h1 c1) as [[h2 c2] e2].
      destruct (run (without_ticks ops) h1' c1) as [[h2' c2'] e2']. simpl in *.
      subst. auto.
Qed.

(** X5: under a clock that does not move when it is read, the timer ticks
    are invisible: taking every tick out of an operation sequence changes
    neither the [onStop] calls, nor the values [split()] returns, nor the
    final [runtime] and [isRunning]. *)
Theorem ticks_unobservable (ops : list Op) (h : Hook) (c : FakeTimer.t) :
  same_core (fst (fst (run ops h c))) (fst (fst (run (without_ticks ops) h c))) /\
  snd (fst (run ops h c)) = snd (fst (run (without_ticks ops) h c)) /\
  snd (run ops h c) = snd (run (without_ticks ops) h c).
Proof. apply ticks_unobservable_from. split; reflexivity. Qed.

(** ** What a run keeps and what it never does *)

Section Runs.
Context {T : Type} `{Clock T}.

Lemma step_runtime_prefix (o : Op) (h : Hook) (c : T) :
  is_reset o = false ->
  runtime h `prefix_of` runtime (fst (fst (step o h c))).
Proof.
  intros Ho. destruct o; try discriminate; simpl.
  - unfold start. destruct (isRunning h); simpl; [reflexivity|].
    unfold bind, now. destruct (Date_now c) as [t c']. simpl.
    now apply prefix_app_r.
  - now rewrite stop_keeps_runtime.
  - unfold startStop, bind, now. destruct (Date_now c) as [t c']. simpl.
    now apply prefix_app_r.
  - unfold bind. now destruct (split h c) as [[t c'] e].
  - unfold tick. destruct (isRunning h); [|reflexivity].
    unfold bind. now destruct (split h c) as [[t c'] e].
Qed.

(** X6: only [reset()] removes or rewrites a recorded timestamp: through
    any sequence of the other operations [runtime] only grows at its end. *)
Theorem runtime_append_only (ops : list Op) (h : Hook) (c : T) :
  Forall (fun o => is_reset o = false) ops ->
  runtime h `prefix_of` runtime (fst (fst (run ops h c))).
Proof.
  intros Hops. revert h c. induction Hops as [|o ops Ho _ IH];
    intros h c; simpl; [reflexivity|].
  unfold bind. pose proof (step_runtime_prefix o h c Ho) as Hp.
  destruct (step o h c) as [[h1 c1] e1]. simpl in Hp.
  specialize (IH h1 c1).
  destruct (run ops h1 c1) as [[h2 c2] e2]. simpl in *.
  now transitivity (runtime h1).
Qed.

Lemma step_onStop_only_stop (o : Op) (h : Hook) (c : T) :
  is_stop o = false -> filter (fun e => is_onStop e = true) (snd (step o h c)) = [].
Proof.
  intros Ho. destruct o; try discriminate; simpl.
  - unfold start. destruct (isRunning h); simpl; [reflexivity|].
    unfold bind, now. now destruct (Date_now c) as [t c'].
  - unfold startStop, bind, now. now destruct (Date_now c) as [t c'].
  - reflexivity.
  - unfold bind. pose proof (split_silent h c) as Hs.
    destruct (split h c) as [[t c'] e]. simpl in *. now subst.
  - unfold tick. destruct (isRunning h); simpl; [|reflexivity].
    unfold bind. pose proof (split_silent h c) as Hs.
    destruct (split h c) as [[t c'] e]. simpl in *. now subst.
Qed.

(** X7: [onStop] is called by [stop()] alone: a sequence of [start()],
    [both()], [reset()], [split()] and timer ticks never calls it. *)
Theorem onStop_only_from_stop (ops : list Op) (h : Hook) (c : T) :
  Forall (fun o => is_stop o = false) ops ->
  filter (fun e => is_onStop e = true) (snd (run ops h c)) = [].
Proof.
  intros Hops. revert h c. induction Hops as [|o ops Ho _ IH];
    intros h c; simpl; [reflexivity|].
  unfold bind. pose proof (step_onStop_only_stop o h c Ho) as Hs.
  destruct (step o h c) as [[h1 c1] e1]. simpl in Hs.
  specialize (IH h1 c1).
  destruct (run ops h1 c1) as [[h2 c2] e2]. simpl in *.
  now rewrite filter_app, Hs, IH.
Qed.

(** X8: as long as [stop()] is not used, the parity of [runtime.length]
    follows [isRunning] from the first render on. *)
Theorem parity_kept_without_stop (ops : list Op) (c : T) :
  Forall (fun o => o <> Stop) ops ->
  parity_ok (fst (fst (run ops init c))) = true.
Proof. intros Hops. now apply parity_run. Qed.


End Runs.

Lemma runtime_append_only_witness :
  Forall (fun o => is_reset o = false) [Stop; Start; Both; Split; Tick] /\
  runtime (mkHook 0 [3] true)
  `prefix_of`
  runtime (fst (fst (run [Stop; Start; Both; Split; Tick]
                         (mkHook 0 [3] true) (Script.of_list [5; 6; 7; 8])))).
Proof.
  assert (Hops : Forall (fun o => is_reset o = false)
                        [Stop; Start; Both; Split; Tick])
    by (repeat constructor).
  split; [exact Hops|].
  exact (runtime_append_only [Stop; Start; Both; Split; Tick]
           (mkHook 0 [3] true) (Script.of_list [5; 6; 7; 8]) Hops).
Defined.

Lemma onStop_only_from_stop_witness :
  Forall (fun o => is_stop o = false) [Start; Split; Both; Tick; Reset; Both] /\
  filter (fun e => is_onStop e = true)
         (snd (run [Start; Split; Both; Tick; Reset; Both] init (at_time 4)))
  = [].
Proof.
  assert (Hops : Forall (fun o => is_stop o = false)
                        [Start; Split; Both; Tick; Reset; Both])
    by (repeat constructor).
  split; [exact Hops|].
  exact (onStop_only_from_stop [Start; Split; Both; Tick; Reset; Both]
           init (at_time 4) Hops).
Defined.

Lemma parity_kept_without_stop_witness :
  Forall (fun o => o <> Stop) [Start; Both; Both; Split; Tick; Start] /\
  parity_ok (fst (fst (run [Start; Both; Both; Split; Tick; Start]
                           init (Script.of_list [1; 2; 3; 4; 5]))))
  = true.
Proof.
  assert (Hops : Forall (fun o => o <> Stop)
                        [Start; Both; Both; Split; Tick; Start])
    by (repeat constructor; discriminate).
  split; [exact Hops|].
  exact (parity_kept_without_stop [Start; Both; Both; Split; Tick; Start]
           (Script.of_list [1; 2; 3; 4; 5]) Hops).
Defined.

(** ** Intervals behind a history of whole pairs *)

Lemma split_at_nil (sw : Z) (r : bool) (n : Z) : split_at (mkHook sw [] r) n = 0.
Proof. reflexivity. Qed.

Lemma split_at_same_runtime (h h' : Hook) (n : Z) :
  runtime h = runtime h' -> split_at h n = split_at h' n.
Proof. intros E. unfold split_at. now rewrite (split_same_runtime h h'). Qed.

(** X10: behind a history of whole pairs, [both()], a wait of [d] and
    [both()] again add exactly [d] to what [split()] returns, at whatever
    time it is asked, provided the second press is not at timestamp 0;
    nothing is called and [isRunning] is back where it was. *)
Theorem toggle_pair_adds_interval (h : Hook) (t0 d n : Z) :
  Nat.Even (length (runtime h)) ->
  t0 + d <> 0 ->
  let '(h2, _, events) := toggle_trip h d (at_time t0) in
  split_at h2 n = split_at h n + d /\
  isRunning h2 = isRunning h /\
  events = [].
Proof.
  intros Heven Hnz. destruct h as [sw rt r]. cbn. simpl in Heven.
  split; [|split; [now destruct r | reflexivity]].
  rewrite (split_at_same_runtime _ (mkHook sw (rt ++ [t0; t0 + d]) r))
    by (simpl; now rewrite <- app_assoc).
  rewrite split_at_app by exact Heven.
  rewrite split_at_closed_pair by exact Hnz.
  rewrite split_at_nil. lia.
Qed.

Lemma toggle_pair_adds_interval_witness :
  Nat.Even (length (runtime (mkHook 0 [3; 8] false))) /\
  100 + 40 <> 0 /\
  let '(h2, _, events) := toggle_trip (mkHook 0 [3; 8] false) 40 (at_time 100) in
  split_at h2 999 = split_at (mkHook 0 [3; 8] false) 999 + 40 /\
  isRunning h2 = isRunning (mkHook 0 [3; 8] false) /\
  events = [].
Proof.
  assert (He : Nat.Even (length (runtime (mkHook 0 [3; 8] false))))
    by (exists 1%nat; reflexivity).
  assert (Hnz : 100 + 40 <> 0) by lia.
  split; [exact He|]. split; [exact Hnz|].
  exact (toggle_pair_adds_interval (mkHook 0 [3; 8] false) 100 40 999 He Hnz).
Defined.

(** X11: from an idle render whose history is whole pairs, [start()], a
    wait of [d] and [stop()] call [onStop] exactly once, with what [split()]
    returns for the history at that moment plus [d], and leave the hook
    idle. *)
Theorem cycle_reports_history_plus_d (h : Hook) (t0 d : Z) :
  isRunning h = false ->
  Nat.Even (length (runtime h)) ->
  let '(h2, _, events) := cycle_from h d (at_time t0) in
  events = [OnStop (split_at h (t0 + d) + d)] /\ isRunning h2 = false.
Proof.
  intros Hidle Heven. destruct h as [sw rt r]. simpl in *. subst r.
  unfold cycle_from, bind.
  change (start (mkHook sw rt false) (at_time t0))
    with (mkHook sw (rt ++ [t0]) true, at_time t0, @nil Event).
  cbn [advance current]. unfold stop. cbn [isRunning]. unfold bind.
  rewrite fake_split.
  cbn [current emit ret setIsRunning isRunning app runtime stopwatch].
  split; [|reflexivity]. do 2 f_equal.
  rewrite split_at_app by exact Heven.
  rewrite (split_at_same_runtime (mkHook sw rt true) (mkHook sw rt false))
    by reflexivity.
  unfold split_at at 2. cbn. lia.
Qed.

Lemma cycle_reports_history_plus_d_witness :
  isRunning (mkHook 0 [3; 8; 20; 0] false) = false /\
  Nat.Even (length (runtime (mkHook 0 [3; 8; 20; 0] false))) /\
  let '(h2, _, events) :=
    cycle_from (mkHook 0 [3; 8; 20; 0] false) 40 (at_time 100) in
  events = [OnStop (split_at (mkHook 0 [3; 8; 20; 0] false) (100 + 40) + 40)] /\
  isRunning h2 = false.
Proof.
  assert (He : Nat.Even (length (runtime (mkHook 0 [3; 8; 20; 0] false))))
    by (exists 2%nat; reflexivity).
  split; [reflexivity|]. split; [exact He|].
  exact (cycle_reports_history_plus_d
           (mkHook 0 [3; 8; 20; 0] false) 100 40 eq_refl He).
Defined.

(** ** Boundaries under a scripted clock *)

Lemma take_sublist_take (l : list Z) (k k' : nat) :
  (k <= k')%nat -> take k l `sublist_of` take k' l.
Proof.
  intros Hle. replace (take k l) with (take k (take k' l)).
  - apply sublist_take.
  - rewrite take_take. f_equal. lia.
Qed.

(** [split] only moves the script's cursor forward. *)
Lemma script_split_pairs (rt : list Z) (total : Z) (c : Script.t) :
  Script.readings (snd (fst (split_pairs rt total c))) = Script.readings c /\
  (Script.reads c <= Script.reads (snd (fst (split_pairs rt total c))))%nat.
Proof.
  revert total c. induction rt as [|a|a b l IH] using list_pair_ind;
    intros total c; simpl.
  - auto.
  - split; [reflexivity | lia].
  - destruct (negb (b =? 0)); [apply IH|].
    unfold bind, now. simpl.
    match goal with
    | |- context [split_pairs l ?t ?c'] =>
        destruct (IH t c') as [Hr Hk];
        destruct (split_pairs l t c') as [[v c2] e]
    end.
    simpl in *. split; [exact Hr | lia].
Qed.

Lemma script_split (h : Hook) (c : Script.t) :
  Script.readings (snd (fst (split h c))) = Script.readings c /\
  (Script.reads c <= Script.reads (snd (fst (split h c))))%nat.
Proof. rewrite split_pairs_eq. apply script_split_pairs. Qed.

Lemma script_snoc (rt : list Z) (c : Script.t) :
  (S (Script.reads c) <= length (Script.readings c))%nat ->
  rt `sublist_of` take (Script.reads c) (Script.readings c) ->
  rt ++ [default 0 (Script.readings c !! Script.reads c)]
  `sublist_of` take (S (Script.reads c)) (Script.readings c).
Proof.
  intros Hlen Hsub.
  destruct (Script.readings c !! Script.reads c) as [x|] eqn:E.
  - rewrite (take_S_r _ _ x E). simpl. now apply sublist_app.
  - apply lookup_ge_None in E. lia.
Qed.

Lemma script_step (o : Op) (h : Hook) (c : Script.t) :
  Script.readings (snd (fst (step o h c))) = Script.readings c /\
  (Script.reads c <= Script.reads (snd (fst (step o h c))))%nat /\
  ((Script.reads (snd (fst (step o h c))) <= length (Script.readings c))%nat ->
   runtime h `sublist_of` take (Script.reads c) (Script.readings c) ->
   runtime (fst (fst (step o h c)))
   `sublist_of` take (Script.reads (snd (fst (step o h c)))) (Script.readings c)).
Proof.
  destruct o; simpl.
  - unfold start. destruct (isRunning h); simpl.
    + auto.
    + split; [reflexivity|]. split; [lia|]. apply script_snoc.
  - unfold stop. destruct (isRunning h); simpl; [|auto].
    unfold bind. destruct (script_split h c) as [Hr Hk].
    destruct (split h c) as [[t c'] e]. simpl in *.
    split; [exact Hr|]. split; [exact Hk|]. intros _ Hsub.
    etransitivity; [exact Hsub|]. now apply take_sublist_take.
  - unfold startStop, bind, now. simpl.
    split; [reflexivity|]. split; [lia|]. apply script_snoc.
  - split; [reflexivity|]. split; [lia|]. intros _ _. apply sublist_nil_l.
  - unfold bind. destruct (script_split h c) as [Hr Hk].
    destruct (split h c) as [[t c'] e]. simpl in *.
    split; [exact Hr|]. split; [exact Hk|]. intros _ Hsub.
    etransitivity; [exact Hsub|]. now apply take_sublist_take.
  - unfold tick. destruct (isRunning h); simpl; [|auto].
    unfold bind. destruct (script_split h c) as [Hr Hk].
    destruct (split h c) as [[t c'] e]. simpl in *.
    split; [exact Hr|]. split; [exact Hk|]. intros _ Hsub.
    etransitivity; [exact Hsub|]. now apply take_sublist_take.
Qed.

Lemma script_run (ops : list Op) (h : Hook) (c : Script.t) :
  Script.readings (snd (fst (run ops h c))) = Script.readings c /\
  (Script.reads c <= Script.reads (snd (fst (run ops h c))))%nat /\
  ((Script.reads (snd (fst (run ops h c))) <= length (Script.readings c))%nat ->
   runtime h `sublist_of` take (Script.reads c) (Script.readings c) ->
   runtime (fst (fst (run ops h c)))
   `sublist_of` take (Script.reads (snd (fst (run ops h c)))) (Script.readings c)).
Proof.
  revert h c. induction ops as [|o ops IH]; intros h c; simpl.
  - auto.
  - unfold bind. destruct (script_step o h c) as (Hr1 & Hk1 & Hs1).
    destruct (step o h c) as [[h1 c1] e1]. simpl in *.
    destruct (IH h1 c1) as (Hr2 & Hk2 & Hs2).
    destruct (run ops h1 c1) as [[h2 c2] e2]. simpl in *.
    rewrite Hr1 in *.
    split; [exact Hr2|]. split; [lia|]. intros Hlen Hsub.
    apply Hs2; [exact Hlen|]. apply Hs1; [lia | exact Hsub].
Qed.

(** X12: under a scripted clock that is not read past its end, the
    boundaries recorded from a fresh hook are readings of the script, in
    the order the script gives them. *)
Theorem runtime_holds_clock_readings (ops : list Op) (l : list Z) :
  (Script.reads (snd (fst (run ops init (Script.of_list l)))) <= length l)%nat ->
  runtime (fst (fst (run ops init (Script.of_list l))))
  `sublist_of`
  take (Script.reads (snd (fst (run ops init (Script.of_list l))))) l.
Proof.
  intros Hlen.
  destruct (script_run ops init (Script.of_list l)) as (_ & _ & Hs).
  apply Hs; [exact Hlen | apply sublist_nil_l].
Qed.

Lemma runtime_holds_clock_readings_witness :
  le (Script.reads (snd (fst (run [Start; Split; Both; Start; Stop] init
                                  (Script.of_list [10; 20; 30; 40; 50; 60])))))
     (length [10; 20; 30; 40; 50; 60]) /\
  runtime (fst (fst (run [Start; Split; Both; Start; Stop] init
                         (Script.of_list [10; 20; 30; 40; 50; 60]))))
  `sublist_of`
  take (Script.reads (snd (fst (run [Start; Split; Both; Start; Stop] init
                                    (Script.of_list [10; 20; 30; 40; 50; 60])))))
       [10; 20; 30; 40; 50; 60].
Proof.
  assert (Hlen : le (Script.reads
                       (snd (fst (run [Start; Split; Both; Start; Stop] init
                                      (Script.of_list [10; 20; 30; 40; 50; 60])))))
                    (length [10; 20; 30; 40; 50; 60]))
    by (vm_compute; lia).
  split; [exact Hlen|].
  exact (runtime_holds_clock_readings [Start; Split; Both; Start; Stop]
           [10; 20; 30; 40; 50; 60] Hlen).
Defined.
